(** * A shallow embedding of src/src/index.js, of the Node server it runs in and
    of the Express defaults it relies on

    The program:
<<
    const express = require("express");
    const app = express();
    app.get("/", (req, res) => { res.send("CI/CD + Terraform demo working 🚀"); });
    app.get("/deploy", (req, res) => { res.send("deployed by CI/CD + Terraform demo working 🚀"); });
    app.listen(3000, () => console.log("App running"));
>>
    [app.listen] creates a Node [http.Server] (Node 18, the runtime of the
    repository's Dockerfile) whose request listener is [app].  What a client
    sees is decided by that server (the [Expect] check of
    [parserOnIncoming], CONNECT handling), by Express 4's router
    (lib/router/index.js, route.js, layer.js with path-to-regexp 0.1), by
    [parseurl], by [res.send] (lib/response.js, [req.fresh], the [fresh]
    package) and by [finalhandler], all with the application's default
    settings ('case sensitive routing' and 'strict routing' off, 'etag' =
    weak).  Strings are byte strings: header values and the request target
    are read byte for byte (Node decodes them as latin1), bodies are the
    UTF-8 bytes [res.send] writes.

    A request here is one Node's HTTP parser accepted: a malformed request,
    or one over the parser's size limits, is answered by the parser (400,
    431, ...) before any request exists, and is not modelled. *)

From Stdlib Require Import String Ascii List Bool Arith.
Import ListNotations.
Open Scope string_scope.

(** ** Requests and responses *)

(** Methods Node's parser accepts and hands to the request listener (a
    selection of them, upper case).  CONNECT is not among them: the parser
    treats it as a tunnel request, and with no 'connect' listener the server
    destroys the socket; see [message] and [accept]. *)
Inductive http_method :=
  | GET | HEAD | POST | PUT | DELETE | PATCH | OPTIONS | TRACE.

Definition method_eqb (a b : http_method) : bool :=
  match a, b with
  | GET, GET | HEAD, HEAD | POST, POST | PUT, PUT | DELETE, DELETE
  | PATCH, PATCH | OPTIONS, OPTIONS | TRACE, TRACE => true
  | _, _ => false
  end.

Definition method_name (m : http_method) : string :=
  match m with
  | GET => "GET" | HEAD => "HEAD" | POST => "POST" | PUT => "PUT"
  | DELETE => "DELETE" | PATCH => "PATCH" | OPTIONS => "OPTIONS"
  | TRACE => "TRACE"
  end.

(** [req.headers] as Node builds it: lower-case names, one value per name. *)
Definition headers := list (string * string).

Record request := mkRequest {
  req_method  : http_method;
  req_url     : string;       (** [req.url]: the request target as sent *)
  req_version : nat * nat;    (** [httpVersionMajor], [httpVersionMinor] *)
  req_headers : headers;
  req_body    : string
}.

Record response := mkResponse {
  res_status : nat;
  res_body   : string
}.

(** [req.headers[name]], [undefined] being [None]. *)
Fixpoint lookup_header (name : string) (hs : headers) : option string :=
  match hs with
  | [] => None
  | (n, v) :: rest => if String.eqb n name then Some v else lookup_header name rest
  end.

(** A header read in a truthiness test, as [fresh] does: [""] stands for
    [undefined], both being falsy. *)
Fixpoint header (name : string) (hs : headers) : string :=
  match hs with
  | [] => ""
  | (n, v) :: rest => if String.eqb n name then v else header name rest
  end.

(** ** [parseurl(req).pathname] *)

(** [fastparse]'s path up to the first ['?']. *)
Fixpoint pathname (url : string) : string :=
  match url with
  | EmptyString => EmptyString
  | String c rest =>
      if Ascii.eqb c "?"%char then EmptyString else String c (pathname rest)
  end.

(** The characters that send [fastparse] to Node's legacy [url.parse]: tab,
    LF, FF, CR, space, ['#'] and U+00A0 (U+FEFF is no latin1 character). *)
Definition fastparse_special (c : ascii) : bool :=
  match nat_of_ascii c with
  | 9 | 10 | 12 | 13 | 32 | 35 | 160 => true
  | _ => false
  end.

(** What parsing a target gives: an exception, or the [pathname] field
    ([null] being [None]). *)
Inductive parsed :=
  | ParseError
  | Parsed (p : option string).

(** [parseurl]'s [fastparse(str)].  A target that starts with ['/'] and holds
    none of [fastparse_special] is cut at its first ['?']; any other target
    (absolute-form [http://host/path], [*], a ['#']) goes to Node's legacy
    [url.parse], which is the parameter [url_parse]: every result below holds
    whatever [url_parse] returns. *)
Definition parse_url (url_parse : string -> parsed) (url : string) : parsed :=
  match url with
  | String "/"%char _ =>
      if existsb fastparse_special (list_ascii_of_string url) then url_parse url
      else Parsed (Some (pathname url))
  | _ => url_parse url
  end.

(** The router's [getPathname(req)]: the pathname, [undefined] when parsing
    throws; [null] and [undefined] both make [handle] call [done()]. *)
Definition req_path (url_parse : string -> parsed) (r : request) : option string :=
  match parse_url url_parse (req_url r) with
  | Parsed p => p
  | ParseError => None
  end.

(** ** Route matching: path-to-regexp with [sensitive: false], [strict: false],
    [end: true] *)

(** The case folding of a regular expression with the [i] flag, on the ASCII
    letters that make up the routes of this program. *)
Definition lower_ascii (c : ascii) : ascii :=
  let n := nat_of_ascii c in
  if Nat.leb 65 n && Nat.leb n 90 then ascii_of_nat (n + 32) else c.

Fixpoint lower (s : string) : string :=
  match s with
  | EmptyString => EmptyString
  | String c rest => String (lower_ascii c) (lower rest)
  end.

Fixpoint last_char (s : string) : option ascii :=
  match s with
  | EmptyString => None
  | String c EmptyString => Some c
  | String _ rest => last_char rest
  end.

Fixpoint drop_last (s : string) : string :=
  match s with
  | EmptyString => EmptyString
  | String _ EmptyString => EmptyString
  | String c rest => String c (drop_last rest)
  end.

(** [pathRegexp(path, keys, {sensitive: false, strict: false, end: true})] for
    a route path without parameters: [^path\/?$] (the final ['/'] of a path
    ending in one becomes optional), tested case-insensitively. *)
Definition path_matches (route_path p : string) : bool :=
  let rp := lower route_path in
  let q := lower p in
  match last_char rp with
  | Some "/"%char => String.eqb q rp || String.eqb q (drop_last rp)
  | _ => String.eqb q rp || String.eqb q (rp ++ "/")
  end.

(** ** The application *)

(** A route registered by [app.get(path, handler)]; every handler of this
    program is [(req, res) => { res.send(text); }], so it is its [text]. *)
Record route := mkRoute {
  route_method : http_method;
  route_path   : string;
  route_text   : string
}.

Record app := mkApp {
  app_routes : list route
}.

(** The server state: the application and the port [app.listen] bound. *)
Record server := mkServer {
  srv_app  : app;
  srv_port : nat
}.

(** [express()] *)
Definition express : app := mkApp [].

(** [app.get(path, (req, res) => { res.send(text); })]: a route appended to
    the router's stack. *)
Definition app_get (path text : string) (a : app) : app :=
  mkApp (app_routes a ++ [mkRoute GET path text]).

(** [app.listen(port, callback)] *)
Definition listen (port : nat) (a : app) : server := mkServer a port.

Definition greeting : string := "CI/CD + Terraform demo working 🚀".
Definition deploy_text : string := "deployed by CI/CD + Terraform demo working 🚀".

(** src/src/index.js, statement by statement. *)
Definition index_js : server :=
  let app0 := express in
  let app1 := app_get "/" greeting app0 in
  let app2 := app_get "/deploy" deploy_text app1 in
  listen 3000 app2.

(** ** Dispatch: Express's [Router.prototype.handle] and [Route] *)

(** [Route.prototype._handles_method]: a HEAD request is served by the GET
    handler of a route that has no HEAD handler of its own. *)
Definition handles_method (rt : route) (m : http_method) : bool :=
  let m' := match m, route_method rt with
            | HEAD, HEAD => HEAD
            | HEAD, _ => GET
            | _, _ => m
            end in
  method_eqb (route_method rt) m'.

(** [Route.prototype._options]: the route's methods, upper case, with HEAD
    added to a GET route that has no HEAD handler. *)
Definition route_options (rt : route) : list http_method :=
  match route_method rt with
  | GET => [GET; HEAD]
  | m => [m]
  end.

(** [appendMethods(list, addition)]: push each method not yet in [list]. *)
Fixpoint append_methods (l addition : list http_method) : list http_method :=
  match addition with
  | [] => l
  | m :: rest =>
      append_methods (if existsb (method_eqb m) l then l else l ++ [m]) rest
  end.

(** What the router's [next()] loop ends in. *)
Inductive outcome :=
  | Matched (rt : route)                 (** [layer.handle_request] *)
  | AutoOptions (allow : list http_method) (** [sendOptionsResponse] *)
  | NoRoute.                             (** [done()]: [finalhandler] *)

(** The [next()] loop over the router's stack: a layer whose path matches and
    whose route handles the method is run; a matching route that does not
    handle an OPTIONS request contributes its methods to [options].  The two
    middleware layers [query] and [expressInit] that [express()] puts first
    match every path and pass on, so they are left out. *)
Fixpoint dispatch (m : http_method) (p : string) (stack : list route)
    (options : list http_method) : outcome :=
  match stack with
  | [] =>
      match m, options with
      | OPTIONS, _ :: _ => AutoOptions options
      | _, _ => NoRoute
      end
  | rt :: rest =>
      if path_matches (route_path rt) p then
        if handles_method rt m then Matched rt
        else dispatch m p rest
               (match m with
                | OPTIONS => append_methods options (route_options rt)
                | _ => options
                end)
      else dispatch m p rest options
  end.
(** ** [res.send] and freshness *)

(** [parseTokenList] of the [fresh] package: split on [','], spaces before a
    token skipped, spaces after it dropped, spaces inside kept. [tok] is the
    token read so far, [pend] the spaces read after it. *)
Fixpoint parse_tokens (s tok pend : string) : list string :=
  match s with
  | EmptyString => [tok]
  | String c rest =>
      if Ascii.eqb c " "%char then
        if String.eqb tok "" then parse_tokens rest "" ""
        else parse_tokens rest tok (pend ++ " ")
      else if Ascii.eqb c ","%char then tok :: parse_tokens rest "" ""
      else parse_tokens rest (tok ++ pend ++ String c EmptyString) ""
  end.

Definition parse_token_list (s : string) : list string := parse_tokens s "" "".

(** JavaScript's [\s] on latin1 characters: tab, LF, VT, FF, CR, space and
    U+00A0 (no-break space). *)
Definition is_space (c : ascii) : bool :=
  let n := nat_of_ascii c in (Nat.leb 9 n && Nat.leb n 13) || Nat.eqb n 32 || Nat.eqb n 160.

Fixpoint trim_left (s : string) : string :=
  match s with
  | String c rest => if is_space c then trim_left rest else s
  | EmptyString => EmptyString
  end.

Definition rev_string (s : string) : string :=
  string_of_list_ascii (rev (list_ascii_of_string s)).

Definition trim (s : string) : string :=
  rev_string (trim_left (rev_string (trim_left s))).

Fixpoint split_commas (s acc : string) : list string :=
  match s with
  | EmptyString => [acc]
  | String c rest =>
      if Ascii.eqb c ","%char then acc :: split_commas rest ""
      else split_commas rest (acc ++ String c EmptyString)
  end.

(** [CACHE_CONTROL_NO_CACHE_REGEXP = /(?:^|,)\s*?no-cache\s*?(?:,|$)/]: some
    comma-separated part is [no-cache] between white space ([\s]). *)
Definition has_no_cache (cc : string) : bool :=
  existsb (fun part => String.eqb (trim part) "no-cache") (split_commas cc "").

(** [match === etag || match === 'W/' + etag || 'W/' + match === etag] *)
Definition etag_token_matches (etag tok : string) : bool :=
  String.eqb tok etag || String.eqb tok ("W/" ++ etag) || String.eqb ("W/" ++ tok) etag.

(** [fresh(reqHeaders, {etag, 'last-modified'})].  [res.send] sets no
    Last-Modified header, so an [If-Modified-Since] request meets
    [!lastModified] and is stale. *)
Definition fresh (hs : headers) (etag : string) : bool :=
  let modified_since := header "if-modified-since" hs in
  let none_match := header "if-none-match" hs in
  if String.eqb modified_since "" && String.eqb none_match "" then false
  else
    let cache_control := header "cache-control" hs in
    if negb (String.eqb cache_control "") && has_no_cache cache_control then false
    else if negb (String.eqb none_match "") && negb (String.eqb none_match "*")
            && (String.eqb etag ""
                || negb (existsb (etag_token_matches etag)
                                 (parse_token_list none_match)))
    then false
    else if negb (String.eqb modified_since "") then false
    else true.

(** The [req.fresh] getter, for the response's current status and ETag. *)
Definition req_fresh (r : request) (status : nat) (etag : string) : bool :=
  match req_method r with
  | GET | HEAD =>
      if (Nat.leb 200 status && Nat.ltb status 300) || Nat.eqb status 304
      then fresh (req_headers r) etag
      else false
  | _ => false
  end.

Section Send.

(** The weak ETag [W/"<length>-<sha1>"] that the default 'etag fn' computes
    from a body.  No claim depends on its value, so it is a parameter and the
    results below hold for every ETag function. *)
Variable etag_of : string -> string.

(** [res.send(body)] with a string body, from status [status] (200 unless
    set): ETag, freshness (then 304), body stripped on 204/304, no body
    written for HEAD. *)
Definition send (r : request) (status : nat) (body : string) : response :=
  let etag := etag_of body in
  let status' := if req_fresh r status etag then 304 else status in
  let chunk := if Nat.eqb status' 204 || Nat.eqb status' 304 then "" else body in
  mkResponse status' (match req_method r with HEAD => "" | _ => chunk end).

End Send.

(** ** [finalhandler]: the response when no route handles the request *)

Definition dq : string := String (ascii_of_nat 34) EmptyString.

Definition escape_char (c : ascii) : string :=
  match nat_of_ascii c with
  | 38 => "&amp;" | 60 => "&lt;" | 62 => "&gt;" | 34 => "&quot;" | 39 => "&#39;"
  | _ => String c EmptyString
  end.

(** [escapeHtml] *)
Fixpoint escape_html (s : string) : string :=
  match s with
  | EmptyString => EmptyString
  | String c rest => escape_char c ++ escape_html rest
  end.

(** [createHtmlDocument(message)]; the message of a 404 holds no newline and
    no space (its path went through [encode_url]), so the two [replace]
    calls do nothing. *)
Definition html_document (message : string) : string :=
  "<!DOCTYPE html>" ++ String "010"%char EmptyString
  ++ "<html lang=" ++ dq ++ "en" ++ dq ++ ">" ++ String "010"%char EmptyString
  ++ "<head>" ++ String "010"%char EmptyString
  ++ "<meta charset=" ++ dq ++ "utf-8" ++ dq ++ ">" ++ String "010"%char EmptyString
  ++ "<title>Error</title>" ++ String "010"%char EmptyString
  ++ "</head>" ++ String "010"%char EmptyString
  ++ "<body>" ++ String "010"%char EmptyString
  ++ "<pre>" ++ escape_html message ++ "</pre>" ++ String "010"%char EmptyString
  ++ "</body>" ++ String "010"%char EmptyString
  ++ "</html>" ++ String "010"%char EmptyString.

Definition hex_char (n : nat) : ascii :=
  if Nat.ltb n 10 then ascii_of_nat (48 + n) else ascii_of_nat (55 + n).

(** ["%XX"] for a byte. *)
Definition pct (n : nat) : string :=
  String "%"%char (String (hex_char (n / 16)) (String (hex_char (n mod 16)) EmptyString)).

(** Characters [encodeURI] leaves as they are: letters, digits,
    [- _ . ! ~ * ' ( )], [; / ? : @ & = + $ ,] and ['#']. *)
Definition uri_unescaped (c : ascii) : bool :=
  let n := nat_of_ascii c in
  (Nat.leb 65 n && Nat.leb n 90) || (Nat.leb 97 n && Nat.leb n 122)
  || (Nat.leb 48 n && Nat.leb n 57)
  || existsb (Nat.eqb n) [45; 95; 46; 33; 126; 42; 39; 40; 41;
                          59; 47; 63; 58; 64; 38; 61; 43; 36; 44; 35].

(** [encodeURI] of one latin1 character: the UTF-8 bytes of its code point,
    percent-encoded, unless it is left as it is. *)
Definition encode_uri_char (c : ascii) : string :=
  let n := nat_of_ascii c in
  if uri_unescaped c then String c EmptyString
  else if Nat.ltb n 128 then pct n
  else pct (192 + n / 64) ++ pct (128 + n mod 64).

(** The class [[\x21\x25\x26-\x3B\x3D\x3F-\x5B\x5D\x5F\x61-\x7A\x7E]] that
    [ENCODE_CHARS_REGEXP] leaves alone. *)
Definition url_char (c : ascii) : bool :=
  let n := nat_of_ascii c in
  Nat.eqb n 33 || Nat.eqb n 37 || (Nat.leb 38 n && Nat.leb n 59) || Nat.eqb n 61
  || (Nat.leb 63 n && Nat.leb n 91) || Nat.eqb n 93 || Nat.eqb n 95
  || (Nat.leb 97 n && Nat.leb n 122) || Nat.eqb n 126.

Definition is_hex (c : ascii) : bool :=
  let n := nat_of_ascii c in
  (Nat.leb 48 n && Nat.leb n 57) || (Nat.leb 65 n && Nat.leb n 70)
  || (Nat.leb 97 n && Nat.leb n 102).

(** [encodeUrl] (encodeurl 1.0): [str.replace(ENCODE_CHARS_REGEXP, encodeURI)]
    with [ENCODE_CHARS_REGEXP =
    /(?:[^<url_char>]|%(?:[^0-9A-Fa-f]|[0-9A-Fa-f][^0-9A-Fa-f]|$))+/g], scanned
    left to right: a character outside [url_char] is encoded; a ['%'] that
    starts no escape is encoded with the one or two characters the regexp
    takes after it.  (Its first [replace], of unpaired surrogates, does
    nothing on latin1 text.) *)
Fixpoint encode_url (s : string) : string :=
  match s with
  | EmptyString => EmptyString
  | String c rest =>
      if Ascii.eqb c "%"%char then
        match rest with
        | EmptyString => encode_uri_char c
        | String d rest' =>
            if negb (is_hex d) then encode_uri_char c ++ encode_uri_char d ++ encode_url rest'
            else
              match rest' with
              | EmptyString => String c (encode_url rest)
              | String e rest'' =>
                  if is_hex e then String c (encode_url rest)
                  else encode_uri_char c ++ encode_uri_char d ++ encode_uri_char e
                       ++ encode_url rest''
              end
        end
      else if url_char c then String c (encode_url rest)
      else encode_uri_char c ++ encode_url rest
  end.

(** [getResourceName(req)]: [parseUrl.original(req).pathname], ['resource']
    when parsing throws; [String(null)] is ["null"]. *)
Definition resource_name (url_parse : string -> parsed) (url : string) : string :=
  match parse_url url_parse url with
  | ParseError => "resource"
  | Parsed None => "null"
  | Parsed (Some p) => p
  end.

(** The message [Cannot <METHOD> <encodeUrl(resource)>]. *)
Definition not_found_message (url_parse : string -> parsed) (r : request) : string :=
  "Cannot " ++ method_name (req_method r) ++ " " ++ encode_url (resource_name url_parse (req_url r)).

(** 404 with the HTML page of that message; no body is written for HEAD. *)
Definition not_found (url_parse : string -> parsed) (r : request) : response :=
  mkResponse 404
    (match req_method r with
     | HEAD => ""
     | _ => html_document (not_found_message url_parse r)
     end).

(** [options.join(',')] *)
Fixpoint join_methods (l : list http_method) : string :=
  match l with
  | [] => ""
  | [m] => method_name m
  | m :: rest => method_name m ++ "," ++ join_methods rest
  end.

(** ** Node's [http] server in front of the Express application *)

(** [\w] *)
Definition is_word_char (c : ascii) : bool :=
  let n := nat_of_ascii c in
  (Nat.leb 65 n && Nat.leb n 90) || (Nat.leb 97 n && Nat.leb n 122)
  || (Nat.leb 48 n && Nat.leb n 57) || Nat.eqb n 95.

Fixpoint drop (n : nat) (s : string) : string :=
  match n, s with
  | 0, _ => s
  | S n', String _ rest => drop n' rest
  | S _, EmptyString => EmptyString
  end.

(** [100-continue(?:$|\W)], case-insensitive, at the start of [s]. *)
Definition continue_at (s : string) : bool :=
  String.prefix "100-continue" (lower s)
  && match drop 12 s with
     | EmptyString => true
     | String c _ => negb (is_word_char c)
     end.

(** Search for [(?:^|\W)100-continue(?:$|\W)]; [prev_ok] says the text
    before [s] is empty or ends in a non-word character. *)
Fixpoint has_continue (prev_ok : bool) (s : string) : bool :=
  match s with
  | EmptyString => false
  | String c rest => (prev_ok && continue_at s) || has_continue (negb (is_word_char c)) rest
  end.

(** [continueExpression.test(value)] *)
Definition continue_expression (v : string) : bool := has_continue true v.

(** [parserOnIncoming]: an HTTP/1.1 request whose [Expect] header is not
    [100-continue] is answered [writeHead(417); end()] without reaching the
    application ([100-continue] gets an interim [100] and goes on). *)
Definition expect_rejected (r : request) : bool :=
  match req_version r with
  | (1, 1) =>
      match lookup_header "expect" (req_headers r) with
      | Some v => negb (continue_expression v)
      | None => false
      end
  | _ => false
  end.

(** What reaches the server: a request, or a [CONNECT] for which the
    server has no ['connect'] listener (its socket is destroyed). *)
Inductive message := Request (r : request) | Connect (target : string).

Section Serve.
Variable url_parse : string -> parsed.
Variable etag_of : string -> string.

(** [app.handle(req, res, finalhandler)]: [router.handle] goes to [done()]
    when the path parses to nothing; otherwise the route stack. *)
Definition respond (a : app) (r : request) : response :=
  match req_path url_parse r with
  | None => not_found url_parse r
  | Some p =>
      match dispatch (req_method r) p (app_routes a) [] with
      | Matched rt => send etag_of r 200 (route_text rt)
      | AutoOptions allow => send etag_of r 200 (join_methods allow)
      | NoRoute => not_found url_parse r
      end
  end.

(** One request through the running server; nothing in [index.js] changes
    the server's state. *)
Definition handle (s : server) (r : request) : response * server :=
  if expect_rejected r then (mkResponse 417 "", s)
  else (respond (srv_app s) r, s).

Fixpoint serve (s : server) (rs : list request) : list response * server :=
  match rs with
  | [] => ([], s)
  | r :: rest =>
      let '(resp, s1) := handle s r in
      let '(resps, s2) := serve s1 rest in
      (resp :: resps, s2)
  end.

Definition accept (s : server) (m : message) : option response * server :=
  match m with
  | Request r => let '(resp, s1) := handle s r in (Some resp, s1)
  | Connect _ => (None, s)
  end.

End Serve.

(** The server state after a history of requests. *)
Definition state_after (url_parse : string -> parsed) (etag_of : string -> string)
    (h : list request) : server :=
  snd (serve url_parse etag_of index_js h).

(** ** The behaviour of src/src/index.js *)

Definition index_routes : list route :=
  [mkRoute GET "/" greeting; mkRoute GET "/deploy" deploy_text].

(** A path some route of the program matches. *)
Definition routed (p : string) : bool :=
  existsb (fun rt => path_matches (route_path rt) p) (app_routes (srv_app index_js)).

(** A request whose parsed path some route matches. *)
Definition request_routed (url_parse : string -> parsed) (r : request) : bool :=
  match req_path url_parse r with
  | Some p => routed p
  | None => false
  end.

(** A plain HTTP/1.1 request: no headers, no body. *)
Definition plain (m : http_method) (url : string) : request :=
  mkRequest m url (1, 1) [] "".

(** A request with [If-None-Match: *], which [fresh] accepts whatever the ETag. *)
Definition conditional (m : http_method) (url : string) : request :=
  mkRequest m url (1, 1) [("if-none-match", "*")] "".

(** An ETag function of the weak [W/"..."] shape, for runs on concrete
    requests. *)
Definition any_etag (body : string) : string := "W/" ++ dq ++ body ++ dq.

(** An ETag function of the shape Express produces ([W/"<hex length>-<hash>"],
    no space, no comma), for runs on concrete requests. *)
Definition sample_weak_etag (body : string) : string :=
  "W/" ++ dq ++ "2d-SGVsbG8" ++ dq.

(** An ETag with neither a space nor a comma, as Express's
    [W/"<hex length>-<base64 sha1>"] are: [parseTokenList] reads it as one
    token. *)
Definition token_safe (s : string) : bool :=
  forallb (fun c => negb (Ascii.eqb c " "%char) && negb (Ascii.eqb c ","%char))
          (list_ascii_of_string s).

Fixpoint cut_path (s : string) : string :=
  match s with
  | EmptyString => EmptyString
  | String c rest =>
      if Ascii.eqb c "?"%char || Ascii.eqb c "#"%char then EmptyString
      else String c (cut_path rest)
  end.

Fixpoint after_host (s : string) : string :=
  match s with
  | EmptyString => "/"
  | String "/"%char _ => s
  | String _ rest => after_host rest
  end.

(** A stand-in for Node's legacy [url.parse] on the few targets the runs
    below use (its results for them): an [http://host] prefix is dropped and
    the path ends at ['?'] or ['#']. *)
Definition sample_url_parse (u : string) : parsed :=
  if String.prefix "http://" u then Parsed (Some (cut_path (after_host (drop 7 u))))
  else Parsed (Some (cut_path u)).

(** ** Runs on concrete requests *)

Example run_root :
  fst (handle sample_url_parse any_etag index_js (plain GET "/")) = mkResponse 200 greeting.
Proof. vm_compute. reflexivity. Qed.
Example run_deploy_upper :
  fst (handle sample_url_parse any_etag index_js (plain GET "/DEPLOY/?x=1"))
  = mkResponse 200 deploy_text.
Proof. vm_compute. reflexivity. Qed.
Example run_absolute_form :
  fst (handle sample_url_parse any_etag index_js (plain GET "http://localhost/deploy"))
  = mkResponse 200 deploy_text.
Proof. vm_compute. reflexivity. Qed.
Example run_fragment :
  fst (handle sample_url_parse any_etag index_js (plain GET "/deploy#x"))
  = mkResponse 200 deploy_text.
Proof. vm_compute. reflexivity. Qed.
Example run_options :
  fst (handle sample_url_parse any_etag index_js (plain OPTIONS "/"))
  = mkResponse 200 "GET,HEAD".
Proof. vm_compute. reflexivity. Qed.
Example run_post :
  fst (handle sample_url_parse any_etag index_js (plain POST "/"))
  = mkResponse 404 (html_document "Cannot POST /").
Proof. vm_compute. reflexivity. Qed.
Example run_star :
  fst (handle sample_url_parse any_etag index_js (conditional GET "/")) = mkResponse 304 "".
Proof. vm_compute. reflexivity. Qed.
Example run_etag :
  fst (handle sample_url_parse any_etag index_js
         (mkRequest GET "/" (1, 1) [("if-none-match", "x, " ++ any_etag greeting)] ""))
  = mkResponse 304 "".
Proof. vm_compute. reflexivity. Qed.
Example run_no_cache_nbsp :
  fst (handle sample_url_parse any_etag index_js
         (mkRequest GET "/" (1, 1)
            [("if-none-match", "*"); ("cache-control", String (ascii_of_nat 160) "no-cache")] ""))
  = mkResponse 200 greeting.
Proof. vm_compute. reflexivity. Qed.
Example run_expect_other :
  fst (handle sample_url_parse any_etag index_js
         (mkRequest GET "/" (1, 1) [("expect", "foo")] ""))
  = mkResponse 417 "".
Proof. vm_compute. reflexivity. Qed.
Example run_expect_continue :
  fst (handle sample_url_parse any_etag index_js
         (mkRequest GET "/" (1, 1) [("expect", "100-Continue")] ""))
  = mkResponse 200 greeting.
Proof. vm_compute. reflexivity. Qed.
Example run_expect_http10 :
  fst (handle sample_url_parse any_etag index_js
         (mkRequest GET "/" (1, 0) [("expect", "foo")] ""))
  = mkResponse 200 greeting.
Proof. vm_compute. reflexivity. Qed.
Example run_not_found_query :
  fst (handle sample_url_parse any_etag index_js (plain GET "/nope?x=1"))
  = mkResponse 404 (html_document "Cannot GET /nope").
Proof. vm_compute. reflexivity. Qed.
Example run_not_found_encoded :
  fst (handle sample_url_parse any_etag index_js (plain GET "/<script>"))
  = mkResponse 404 (html_document "Cannot GET /%3Cscript%3E").
Proof. vm_compute. reflexivity. Qed.
Example run_encode_latin1 :
  encode_url ("/caf" ++ String (ascii_of_nat 233) "") = "/caf%C3%A9".
Proof. vm_compute. reflexivity. Qed.
Example run_encode_percent :
  encode_url "/a%zz%41%4" = "/a%25zz%41%4".
Proof. vm_compute. reflexivity. Qed.
Example run_connect :
  fst (accept sample_url_parse any_etag index_js (Connect "localhost:443")) = None.
Proof. reflexivity. Qed.

(** ** Lemmas *)

Lemma index_js_routes : app_routes (srv_app index_js) = index_routes.
Proof. reflexivity. Qed.

Lemma root_excludes_deploy (p : string) :
  path_matches "/" p = true -> path_matches "/deploy" p = false.
Proof.
  unfold path_matches; simpl.
  intros H; apply orb_true_iff in H as [H | H]; apply String.eqb_eq in H;
    rewrite H; reflexivity.
Qed.

Lemma respond_index_js (url_parse : string -> parsed) (etag_of : string -> string)
    (r : request) :
  respond url_parse etag_of (srv_app index_js) r =
  match req_path url_parse r with
  | None => not_found url_parse r
  | Some p =>
      let reply text :=
        match req_method r with
        | GET | HEAD => send etag_of r 200 text
        | OPTIONS => send etag_of r 200 "GET,HEAD"
        | _ => not_found url_parse r
        end in
      if path_matches "/" p then reply greeting
      else if path_matches "/deploy" p then reply deploy_text
      else not_found url_parse r
  end.
Proof.
  unfold respond; rewrite index_js_routes; unfold index_routes.
  destruct (req_path url_parse r) as [p |]; [| reflexivity].
  cbn zeta; cbn [dispatch route_path route_text].
  destruct (path_matches "/" p) eqn:E1.
  - rewrite (root_excludes_deploy p E1).
    destruct (req_method r); reflexivity.
  - destruct (path_matches "/deploy" p);
      destruct (req_method r); reflexivity.
Qed.

Lemma handle_response (url_parse : string -> parsed) (etag_of : string -> string)
    (s : server) (r : request) :
  fst (handle url_parse etag_of s r) =
  if expect_rejected r then mkResponse 417 "" else respond url_parse etag_of (srv_app s) r.
Proof. unfold handle; destruct (expect_rejected r); reflexivity. Qed.

Lemma send_get (etag_of : string -> string) (r : request) (text : string) :
  req_method r = GET ->
  send etag_of r 200 text =
  if fresh (req_headers r) (etag_of text) then mkResponse 304 "" else mkResponse 200 text.
Proof.
  intros Hm; unfold send, req_fresh; rewrite Hm; cbn.
  destruct (fresh (req_headers r) (etag_of text)); reflexivity.
Qed.

Lemma send_head (etag_of : string -> string) (r : request) (text : string) :
  req_method r = HEAD ->
  send etag_of r 200 text =
  mkResponse (if fresh (req_headers r) (etag_of text) then 304 else 200) "".
Proof.
  intros Hm; unfold send, req_fresh; rewrite Hm; cbn.
  destruct (fresh (req_headers r) (etag_of text)); reflexivity.
Qed.

(** The answer of [index_js] to an accepted request, case by case. *)
Lemma handle_index_js (url_parse : string -> parsed) (etag_of : string -> string)
    (r : request) :
  fst (handle url_parse etag_of index_js r) =
  if expect_rejected r then mkResponse 417 ""
  else
    match req_path url_parse r with
    | None => not_found url_parse r
    | Some p =>
        let reply text :=
          match req_method r with
          | GET | HEAD => send etag_of r 200 text
          | OPTIONS => send etag_of r 200 "GET,HEAD"
          | _ => not_found url_parse r
          end in
        if path_matches "/" p then reply greeting
        else if path_matches "/deploy" p then reply deploy_text
        else not_found url_parse r
    end.
Proof. rewrite handle_response, respond_index_js; reflexivity. Qed.


Lemma serve_keeps_state (url_parse : string -> parsed) (etag_of : string -> string)
    (s : server) (rs : list request) :
  snd (serve url_parse etag_of s rs) = s.
Proof.
  revert s; induction rs as [| r rest IH]; intros s; [reflexivity |].
  cbn [serve]; unfold handle.
  destruct (expect_rejected r);
    specialize (IH s); destruct (serve url_parse etag_of s rest) as [resps s'] eqn:E;
    exact IH.
Qed.

Lemma state_after_index_js (url_parse : string -> parsed) (etag_of : string -> string)
    (h : list request) :
  state_after url_parse etag_of h = index_js.
Proof. apply serve_keeps_state. Qed.

Lemma send_status_body (etag_of : string -> string) (r : request) (text : string) :
  (res_status (send etag_of r 200 text) = 200 \/ res_status (send etag_of r 200 text) = 304) /\
  (res_status (send etag_of r 200 text) = 304 -> res_body (send etag_of r 200 text) = "") /\
  (res_status (send etag_of r 200 text) = 304 -> req_fresh r 200 (etag_of text) = true).
Proof.
  unfold send; destruct (req_fresh r 200 (etag_of text)) eqn:E; cbn.
  - split; [right; reflexivity | split; [destruct (req_method r); reflexivity | reflexivity]].
  - split; [left; reflexivity | split; discriminate].
Qed.

Lemma fresh_conditional_headers (hs1 hs2 : headers) (etag : string) :
  header "if-none-match" hs1 = header "if-none-match" hs2 ->
  header "if-modified-since" hs1 = header "if-modified-since" hs2 ->
  header "cache-control" hs1 = header "cache-control" hs2 ->
  fresh hs1 etag = fresh hs2 etag.
Proof. intros E1 E2 E3; unfold fresh; rewrite E1, E2, E3; reflexivity. Qed.


Lemma req_fresh_true_inv (r : request) (etag : string) :
  req_fresh r 200 etag = true ->
  (req_method r = GET \/ req_method r = HEAD) /\ fresh (req_headers r) etag = true.
Proof.
  unfold req_fresh; destruct (req_method r); cbn; try discriminate; auto.
Qed.

Lemma lower_ascii_idem (c : ascii) : lower_ascii (lower_ascii c) = lower_ascii c.
Proof. destruct c as [[] [] [] [] [] [] [] []]; reflexivity. Qed.

Lemma lower_idem (s : string) : lower (lower s) = lower s.
Proof. induction s as [| c s IH]; cbn; [reflexivity | rewrite lower_ascii_idem, IH; reflexivity]. Qed.

Lemma string_app_assoc (a b c : string) : (a ++ b) ++ c = a ++ (b ++ c).
Proof. induction a as [| x a IH]; cbn; [reflexivity | rewrite IH; reflexivity]. Qed.

Lemma string_app_empty (a : string) : a ++ "" = a.
Proof. induction a as [| x a IH]; cbn; [reflexivity | rewrite IH; reflexivity]. Qed.

Lemma parse_tokens_single (s tok : string) :
  token_safe s = true -> parse_tokens s tok "" = [tok ++ s].
Proof.
  revert tok; induction s as [| c s IH]; intros tok Hs.
  - cbn; rewrite string_app_empty; reflexivity.
  - unfold token_safe in Hs; cbn [list_ascii_of_string forallb] in Hs.
    apply andb_prop in Hs as [Hc Hs]; apply andb_prop in Hc as [Hsp Hco].
    apply negb_true_iff in Hsp, Hco.
    cbn [parse_tokens]; rewrite Hsp, Hco.
    rewrite IH by exact Hs.
    cbn [String.append]; rewrite string_app_assoc; reflexivity.
Qed.

Lemma fresh_matching_etag (hs : headers) (etag : string) :
  header "if-none-match" hs = etag -> etag <> "" -> token_safe etag = true ->
  header "if-modified-since" hs = "" ->
  has_no_cache (header "cache-control" hs) = false ->
  fresh hs etag = true.
Proof.
  intros Hinm He Hs Hims Hcc; unfold fresh.
  rewrite Hinm, Hims, Hcc, andb_false_r.
  apply String.eqb_neq in He; rewrite He; cbn [andb negb].
  unfold parse_token_list; rewrite parse_tokens_single by exact Hs; cbn [String.append].
  unfold etag_token_matches; cbn [existsb]; rewrite (String.eqb_refl etag); cbn [orb negb].
  rewrite !andb_false_r; reflexivity.
Qed.

Lemma routed_unfold (p : string) :
  routed p = path_matches "/" p || path_matches "/deploy" p.
Proof.
  unfold routed; rewrite index_js_routes; cbn [existsb index_routes route_path].
  rewrite orb_false_r; reflexivity.
Qed.

(** Unfold [send] and [not_found] on a request of known method and close
    the status and body goals that remain. *)
Ltac settle_send Em :=
  unfold send, req_fresh, not_found in *; rewrite ?Em in *; cbn in *;
  repeat match goal with
         | |- context [fresh ?h ?e] => destruct (fresh h e)
         end; cbn in *;
  repeat split; intros;
  try match goal with
      | H : _ \/ _ |- _ => destruct H as [H | H]; discriminate H
      end;
  try reflexivity; try discriminate; try congruence; auto.

(** ** Claims *)







(** C3 (as amended).  A request with a rejected [Expect] header gets 417
    with an empty body.  Otherwise: a request whose parsed path no route
    matches (matching being case-insensitive with an optional trailing slash;
    a target that parses to no path included) gets 404; on a path a route
    matches, an OPTIONS request gets 200 with body [GET,HEAD], GET and HEAD
    get 200 or 304, and any other method gets 404.  No case answers 405, and
    a CONNECT gets no response at all. *)
Theorem unmatched_requests_404 (url_parse : string -> parsed) (etag_of : string -> string)
    (r : request) :
  (expect_rejected r = true ->
   fst (handle url_parse etag_of index_js r) = mkResponse 417 "") /\
  (expect_rejected r = false -> request_routed url_parse r = false ->
   res_status (fst (handle url_parse etag_of index_js r)) = 404) /\
  (expect_rejected r = false -> request_routed url_parse r = true ->
   req_method r = OPTIONS ->
   fst (handle url_parse etag_of index_js r) = mkResponse 200 "GET,HEAD") /\
  (expect_rejected r = false -> request_routed url_parse r = true ->
   req_method r = GET \/ req_method r = HEAD ->
   res_status (fst (handle url_parse etag_of index_js r)) = 200 \/
   res_status (fst (handle url_parse etag_of index_js r)) = 304) /\
  (expect_rejected r = false -> request_routed url_parse r = true ->
   req_method r <> GET -> req_method r <> HEAD -> req_method r <> OPTIONS ->
   res_status (fst (handle url_parse etag_of index_js r)) = 404) /\
  res_status (fst (handle url_parse etag_of index_js r)) <> 405 /\
  (forall target : string,
     fst (accept url_parse etag_of index_js (Connect target)) = None).
Proof.
  rewrite !handle_index_js; unfold request_routed; cbn zeta.
  destruct (expect_rejected r).
  { repeat split; intros; try reflexivity; try discriminate. }
  destruct (req_path url_parse r) as [p |].
  2: { destruct (req_method r) eqn:Em; settle_send Em. }
  rewrite routed_unfold.
  destruct (path_matches "/" p); [| destruct (path_matches "/deploy" p)]; cbn [orb];
    destruct (req_method r) eqn:Em; settle_send Em.
Qed.

Lemma unmatched_requests_404_witness :
  res_status (fst (handle sample_url_parse any_etag index_js (plain POST "/nope"))) = 404 /\
  fst (handle sample_url_parse any_etag index_js (plain OPTIONS "/Deploy/"))
  = mkResponse 200 "GET,HEAD" /\
  res_status (fst (handle sample_url_parse any_etag index_js (plain DELETE "/"))) = 404 /\
  fst (handle sample_url_parse any_etag index_js
         (mkRequest GET "/" (1, 1) [("expect", "foo")] "")) = mkResponse 417 "".
Proof.
  split; [| split; [| split]].
  - exact (proj1 (proj2 (unmatched_requests_404 sample_url_parse any_etag (plain POST "/nope")))
             eq_refl eq_refl).
  - exact (proj1 (proj2 (proj2 (unmatched_requests_404 sample_url_parse any_etag
                                  (plain OPTIONS "/Deploy/")))) eq_refl eq_refl eq_refl).
  - apply (proj1 (proj2 (proj2 (proj2 (proj2
             (unmatched_requests_404 sample_url_parse any_etag (plain DELETE "/")))))));
      [reflexivity | reflexivity | discriminate | discriminate | discriminate].
  - exact (proj1 (unmatched_requests_404 sample_url_parse any_etag
                    (mkRequest GET "/" (1, 1) [("expect", "foo")] "")) eq_refl).
Defined.

(** C3 counterexample: HEAD [/], OPTIONS [/] and GET [/DEPLOY] are none of the
    two registered pairs, and each gets 200, whatever the ETag function and
    the legacy parser. *)
Lemma unregistered_pairs_answered_200 :
  req_method (plain HEAD "/") = HEAD /\ req_method (plain OPTIONS "/") = OPTIONS /\
  (forall (url_parse : string -> parsed) (etag_of : string -> string),
     req_path url_parse (plain GET "/DEPLOY") <> Some "/deploy" /\
     res_status (fst (handle url_parse etag_of index_js (plain HEAD "/"))) = 200 /\
     res_status (fst (handle url_parse etag_of index_js (plain OPTIONS "/"))) = 200 /\
     res_status (fst (handle url_parse etag_of index_js (plain GET "/DEPLOY"))) = 200).
Proof.
  split; [reflexivity | split; [reflexivity |]].
  intros url_parse etag_of; split; [discriminate |].
  rewrite !handle_index_js; repeat split; reflexivity.
Qed.

(** C4. The server listens on port 3000, and on that port only: its one
    listener is bound to 3000 and still is after any history of requests. *)
Theorem listen_port_3000 :
  srv_port index_js = 3000 /\
  forall (url_parse : string -> parsed) (etag_of : string -> string) (h : list request),
    srv_port (state_after url_parse etag_of h) = 3000.
Proof.
  split; [reflexivity |].
  intros url_parse etag_of h; rewrite state_after_index_js; reflexivity.
Qed.

(** C5 (as amended). For two GET requests to the same routed path, after any
    two histories, the responses are equal as soon as the requests agree on
    whether Node rejects their [Expect] header and on the three headers that
    conditional GET reads ([If-None-Match], [If-Modified-Since],
    [Cache-Control]): query string, body and every other header are not
    read, and nothing of the history is. *)
Theorem get_route_reads_only_conditional_headers (url_parse : string -> parsed)
    (etag_of : string -> string) (h1 h2 : list request) (r1 r2 : request) (p : string)
    (Hm1 : req_method r1 = GET) (Hm2 : req_method r2 = GET)
    (Hp1 : req_path url_parse r1 = Some p) (Hp2 : req_path url_parse r2 = Some p)
    (Hr : routed p = true)
    (Hexp : expect_rejected r1 = expect_rejected r2)
    (Hinm : header "if-none-match" (req_headers r1) = header "if-none-match" (req_headers r2))
    (Hims : header "if-modified-since" (req_headers r1)
            = header "if-modified-since" (req_headers r2))
    (Hcc : header "cache-control" (req_headers r1) = header "cache-control" (req_headers r2)) :
  fst (handle url_parse etag_of (state_after url_parse etag_of h1) r1)
  = fst (handle url_parse etag_of (state_after url_parse etag_of h2) r2).
Proof.
  rewrite !state_after_index_js, !handle_index_js, Hp1, Hp2, <- Hexp; cbn zeta.
  destruct (expect_rejected r1); [reflexivity |].
  rewrite Hm1, Hm2.
  rewrite routed_unfold in Hr.
  destruct (path_matches "/" p);
    [| destruct (path_matches "/deploy" p); [| discriminate]];
    rewrite !send_get by assumption;
    rewrite (fresh_conditional_headers _ _ _ Hinm Hims Hcc); reflexivity.
Qed.

Lemma get_route_reads_only_conditional_headers_witness :
  fst (handle sample_url_parse any_etag (state_after sample_url_parse any_etag [plain POST "/x"])
         (mkRequest GET "/deploy?a=1" (1, 1) [("accept", "text/plain")] "abc"))
  = fst (handle sample_url_parse any_etag (state_after sample_url_parse any_etag [])
           (mkRequest GET "/deploy?b=2" (1, 0) [("user-agent", "curl")] "")).
Proof.
  apply (get_route_reads_only_conditional_headers _ _ _ _ _ _ "/deploy"); reflexivity.
Defined.

(** C5 counterexample: two GET [/] requests that differ only in an
    [If-None-Match: *] header get different responses, after any histories. *)
Lemma get_root_depends_on_if_none_match :
  req_method (plain GET "/") = GET /\ req_method (conditional GET "/") = GET /\
  (forall (url_parse : string -> parsed) (etag_of : string -> string) (h1 h2 : list request),
     fst (handle url_parse etag_of (state_after url_parse etag_of h1) (plain GET "/"))
     <> fst (handle url_parse etag_of (state_after url_parse etag_of h2) (conditional GET "/"))).
Proof.
  split; [reflexivity | split; [reflexivity |]].
  intros url_parse etag_of h1 h2; rewrite !state_after_index_js, !handle_index_js.
  cbn; discriminate.
Qed.

(** C6. Handling a request changes nothing of the server state (its routes,
    their response texts, its port), one request at a time, over any run,
    and for a CONNECT too. *)
Theorem handle_no_side_effect (url_parse : string -> parsed) (etag_of : string -> string)
    (s : server) (r : request) (rs : list request) (m : message) :
  snd (handle url_parse etag_of s r) = s /\ snd (serve url_parse etag_of s rs) = s /\
  snd (accept url_parse etag_of s m) = s.
Proof.
  split; [unfold handle; destruct (expect_rejected r); reflexivity |].
  split; [apply serve_keeps_state |].
  destruct m as [r' | t]; [| reflexivity].
  unfold accept, handle; destruct (expect_rejected r'); reflexivity.
Qed.

(** C8. The body sent for GET [/deploy] is ["deployed by "] followed by the
    body sent for GET [/]. *)
Theorem deploy_body_extends_root_body (url_parse : string -> parsed)
    (etag_of : string -> string) :
  res_body (fst (handle url_parse etag_of index_js (plain GET "/deploy")))
  = "deployed by " ++ res_body (fst (handle url_parse etag_of index_js (plain GET "/"))).
Proof. rewrite !handle_index_js; reflexivity. Qed.

(** C9 (as amended). A GET request whose parsed path is [/deploy] up to
    ASCII case and one trailing slash gets the response of GET [/deploy]
    with the same version and headers: 417 with an empty body when Node
    rejects its [Expect] header, otherwise 200 with the deploy text, or 304
    with an empty body when Express judges it a fresh conditional request;
    never 404. *)
Theorem get_deploy_case_and_slash (url_parse : string -> parsed) (etag_of : string -> string)
    (r : request) (p : string)
    (Hm : req_method r = GET) (Hp : req_path url_parse r = Some p)
    (Hl : lower p = "/deploy" \/ lower p = "/deploy/") :
  fst (handle url_parse etag_of index_js r)
  = fst (handle url_parse etag_of index_js
           (mkRequest GET "/deploy" (req_version r) (req_headers r) (req_body r))) /\
  fst (handle url_parse etag_of index_js r)
  = if expect_rejected r then mkResponse 417 ""
    else if fresh (req_headers r) (etag_of deploy_text)
    then mkResponse 304 "" else mkResponse 200 deploy_text.
Proof.
  set (r' := mkRequest GET "/deploy" (req_version r) (req_headers r) (req_body r)).
  assert (Ee : expect_rejected r' = expect_rejected r) by reflexivity.
  assert (Ep : req_path url_parse r' = Some "/deploy") by reflexivity.
  assert (Em' : req_method r' = GET) by reflexivity.
  rewrite !handle_index_js, Ee, Hp, Ep; cbn zeta.
  destruct (expect_rejected r); [split; reflexivity |].
  assert (E1 : path_matches "/" p = false)
    by (unfold path_matches; simpl; destruct Hl as [H | H]; rewrite H; reflexivity).
  assert (E2 : path_matches "/deploy" p = true)
    by (unfold path_matches; simpl; destruct Hl as [H | H]; rewrite H; reflexivity).
  rewrite E1, E2, Hm, Em'.
  change (path_matches "/" "/deploy") with false;
    change (path_matches "/deploy" "/deploy") with true; cbv iota.
  rewrite (send_get etag_of r deploy_text Hm), (send_get etag_of r' deploy_text Em').
  split; reflexivity.
Qed.

Lemma get_deploy_case_and_slash_witness :
  fst (handle sample_url_parse any_etag index_js (plain GET "/DePlOy/?v=2"))
  = mkResponse 200 deploy_text.
Proof.
  rewrite (proj2 (get_deploy_case_and_slash sample_url_parse any_etag (plain GET "/DePlOy/?v=2")
                    "/DePlOy/" eq_refl eq_refl (or_intror eq_refl))).
  reflexivity.
Defined.

(** C9 counterexample: GET [/DEPLOY] with [If-None-Match: *] gets 304 and an
    empty body, not 200 with the deploy text. *)
Lemma get_deploy_upper_conditional_304 :
  req_method (conditional GET "/DEPLOY") = GET /\
  (forall (url_parse : string -> parsed) (etag_of : string -> string),
     req_path url_parse (conditional GET "/DEPLOY") = Some "/DEPLOY" /\
     fst (handle url_parse etag_of index_js (conditional GET "/DEPLOY")) = mkResponse 304 "").
Proof.
  split; [reflexivity |].
  intros url_parse etag_of; split; [reflexivity |].
  rewrite handle_index_js; reflexivity.
Qed.

(** C10 (as amended). A HEAD request whose parsed path is [/] or [/deploy]
    is served by the GET route: an empty body, with status 200, or 304 when
    Express judges it a fresh conditional request; 417 when Node rejects its
    [Expect] header; never 404 or 405. *)
Theorem head_served_by_get_routes (url_parse : string -> parsed) (etag_of : string -> string)
    (r : request) (Hm : req_method r = HEAD) :
  (req_path url_parse r = Some "/" ->
   fst (handle url_parse etag_of index_js r)
   = if expect_rejected r then mkResponse 417 ""
     else mkResponse (if fresh (req_headers r) (etag_of greeting) then 304 else 200) "") /\
  (req_path url_parse r = Some "/deploy" ->
   fst (handle url_parse etag_of index_js r)
   = if expect_rejected r then mkResponse 417 ""
     else mkResponse (if fresh (req_headers r) (etag_of deploy_text) then 304 else 200) "").
Proof.
  rewrite handle_index_js; cbn zeta.
  split; intros Hp; rewrite Hp; (destruct (expect_rejected r); [reflexivity |]).
  - change (path_matches "/" "/") with true; cbv iota.
    rewrite Hm; apply send_head; exact Hm.
  - change (path_matches "/" "/deploy") with false;
      change (path_matches "/deploy" "/deploy") with true; cbv iota.
    rewrite Hm; apply send_head; exact Hm.
Qed.

Lemma head_served_by_get_routes_witness :
  fst (handle sample_url_parse any_etag index_js (plain HEAD "/")) = mkResponse 200 "" /\
  fst (handle sample_url_parse any_etag index_js (plain HEAD "/deploy")) = mkResponse 200 "".
Proof.
  split.
  - rewrite (proj1 (head_served_by_get_routes sample_url_parse any_etag (plain HEAD "/") eq_refl)
               eq_refl).
    reflexivity.
  - rewrite (proj2 (head_served_by_get_routes sample_url_parse any_etag (plain HEAD "/deploy")
                      eq_refl) eq_refl).
    reflexivity.
Defined.

(** C10 counterexample: HEAD [/] with [If-None-Match: *] gets 304, not 200. *)
Lemma head_root_conditional_304 :
  req_method (conditional HEAD "/") = HEAD /\
  (forall (url_parse : string -> parsed) (etag_of : string -> string),
     req_path url_parse (conditional HEAD "/") = Some "/" /\
     res_status (fst (handle url_parse etag_of index_js (conditional HEAD "/"))) = 304).
Proof.
  split; [reflexivity |].
  intros url_parse etag_of; split; [reflexivity |].
  rewrite handle_index_js; reflexivity.
Qed.

(** ** Further properties of the program *)

(** A 304 is sent only to a GET or HEAD request whose parsed path is routed,
    and with an empty body. *)
Theorem not_modified_only_get_head_routed (url_parse : string -> parsed)
    (etag_of : string -> string) (r : request)
    (H : res_status (fst (handle url_parse etag_of index_js r)) = 304) :
  (req_method r = GET \/ req_method r = HEAD) /\
  request_routed url_parse r = true /\
  res_body (fst (handle url_parse etag_of index_js r)) = "".
Proof.
  revert H; rewrite handle_index_js; unfold request_routed; cbn zeta.
  destruct (expect_rejected r); [discriminate |].
  destruct (req_path url_parse r) as [p |]; [| discriminate].
  rewrite routed_unfold.
  destruct (path_matches "/" p); [| destruct (path_matches "/deploy" p)]; cbn [orb];
    destruct (req_method r) eqn:Em; try discriminate;
    intros H;
    match type of H with
    | res_status (send etag_of r 200 ?t) = 304 =>
        pose proof (proj1 (proj2 (send_status_body etag_of r t)) H) as Hb;
        pose proof (proj1 (req_fresh_true_inv r _ (proj2 (proj2 (send_status_body etag_of r t)) H)))
          as Hgh
    end;
    rewrite Em in Hgh; destruct Hgh as [Hg | Hg]; try discriminate Hg;
    repeat split; auto.
Qed.

Lemma not_modified_only_get_head_routed_witness :
  res_status (fst (handle sample_url_parse any_etag index_js (conditional HEAD "/deploy/"))) = 304 /\
  request_routed sample_url_parse (conditional HEAD "/deploy/") = true.
Proof.
  split; [reflexivity |].
  exact (proj1 (proj2 (not_modified_only_get_head_routed sample_url_parse any_etag
                          (conditional HEAD "/deploy/") eq_refl))).
Defined.



(** A HEAD request never gets a body, whatever its path and headers. *)
Theorem head_never_has_body (url_parse : string -> parsed) (etag_of : string -> string)
    (r : request) (Hm : req_method r = HEAD) :
  res_body (fst (handle url_parse etag_of index_js r)) = "".
Proof.
  rewrite handle_index_js; cbn zeta.
  destruct (expect_rejected r); [reflexivity |].
  destruct (req_path url_parse r) as [p |]; [| unfold not_found; rewrite Hm; reflexivity].
  rewrite Hm.
  destruct (path_matches "/" p); [| destruct (path_matches "/deploy" p)];
    unfold send, not_found; rewrite Hm; reflexivity.
Qed.

Lemma head_never_has_body_witness :
  res_body (fst (handle sample_url_parse any_etag index_js (plain HEAD "/missing"))) = "".
Proof. exact (head_never_has_body sample_url_parse any_etag (plain HEAD "/missing") eq_refl). Defined.

(** A HEAD request gets the status that the GET request for the same URL,
    version and headers gets, on every path. *)
Theorem head_status_is_get_status (url_parse : string -> parsed) (etag_of : string -> string)
    (url : string) (ver : nat * nat) (hs : headers) (b1 b2 : string) :
  res_status (fst (handle url_parse etag_of index_js (mkRequest HEAD url ver hs b1)))
  = res_status (fst (handle url_parse etag_of index_js (mkRequest GET url ver hs b2))).
Proof.
  assert (Ee : expect_rejected (mkRequest HEAD url ver hs b1)
               = expect_rejected (mkRequest GET url ver hs b2)) by reflexivity.
  assert (Ep : req_path url_parse (mkRequest HEAD url ver hs b1)
               = req_path url_parse (mkRequest GET url ver hs b2)) by reflexivity.
  rewrite !handle_index_js, Ee, Ep; cbn zeta.
  destruct (expect_rejected (mkRequest GET url ver hs b2)); [reflexivity |].
  destruct (req_path url_parse (mkRequest GET url ver hs b2)) as [p |]; [| reflexivity].
  cbn [req_method].
  destruct (path_matches "/" p); [| destruct (path_matches "/deploy" p)];
    unfold send, req_fresh; cbn [req_method req_headers]; reflexivity.
Qed.

(** The paths the program routes are exactly those whose ASCII lower case is
    [""], ["/"], ["/deploy"] or ["/deploy/"]. *)
Theorem routed_paths (p : string) :
  routed p = true <-> In (lower p) [""; "/"; "/deploy"; "/deploy/"].
Proof.
  unfold routed; rewrite index_js_routes; cbn [existsb index_routes route_path].
  unfold path_matches; simpl.
  rewrite orb_false_r, !orb_true_iff, !String.eqb_eq.
  split.
  - intros [[H | H] | [H | H]]; rewrite H; simpl; auto 6.
  - intros [H | [H | [H | [H | []]]]]; rewrite <- H; simpl; auto 6.
Qed.

(** A GET to a route whose If-None-Match header is the ETag of the route's
    body (a single token, no If-Modified-Since, no [no-cache] directive),
    and whose [Expect] header, if any, Node accepts, gets 304 with an empty
    body. *)
Theorem conditional_get_matching_etag (url_parse : string -> parsed)
    (etag_of : string -> string) (r : request) (p t : string)
    (Hroute : In (p, t) [("/", greeting); ("/deploy", deploy_text)])
    (Hp : req_path url_parse r = Some p)
    (Hm : req_method r = GET)
    (Hexp : expect_rejected r = false)
    (Hinm : header "if-none-match" (req_headers r) = etag_of t)
    (He : etag_of t <> "") (Hs : token_safe (etag_of t) = true)
    (Hims : header "if-modified-since" (req_headers r) = "")
    (Hcc : has_no_cache (header "cache-control" (req_headers r)) = false) :
  fst (handle url_parse etag_of index_js r) = mkResponse 304 "".
Proof.
  rewrite handle_index_js, Hexp, Hp; cbn zeta.
  destruct Hroute as [E | [E | []]]; injection E as Ep Et; subst p t; rewrite Hm.
  - change (path_matches "/" "/") with true; cbv iota.
    rewrite (send_get etag_of r greeting Hm).
    rewrite (fresh_matching_etag _ _ Hinm He Hs Hims Hcc); reflexivity.
  - change (path_matches "/" "/deploy") with false;
      change (path_matches "/deploy" "/deploy") with true; cbv iota.
    rewrite (send_get etag_of r deploy_text Hm).
    rewrite (fresh_matching_etag _ _ Hinm He Hs Hims Hcc); reflexivity.
Qed.

Lemma conditional_get_matching_etag_witness :
  fst (handle sample_url_parse sample_weak_etag index_js
         (mkRequest GET "/deploy?x" (1, 1) [("if-none-match", sample_weak_etag deploy_text)] ""))
  = mkResponse 304 "".
Proof.
  apply (conditional_get_matching_etag sample_url_parse sample_weak_etag _ "/deploy" deploy_text);
    cbn; auto; discriminate.
Defined.


